(** * docker-utils: the managed-container helper of [docker.go]

    A shallow embedding of package [docker]: the [Container] configuration
    record, its option mutators, the constructor [NewContainer], and the three
    effectful operations [CreateContainer], [executeCommands] and [Stop].

    The Docker engine client, [nat.NewPort], [time.Sleep], [ioutil.ReadAll]
    and the logger are external collaborators.  Every call the Go code makes to
    one of them is an operation [Op]; a program is a tree of such calls
    ([Prog]); running a program against an arbitrary handler (a stub of the
    outside world) yields the returned value together with the trace of the
    calls that were made and the answers they got. *)

From Stdlib Require Import ZArith String List.
From stdpp Require Import base option list strings gmap.

Open Scope string_scope.

(** ** Go values *)

(** A Go slice is either [nil] or a (possibly empty) sequence. *)
Definition slice (A : Type) : Type := option (list A).

Definition len {A : Type} (s : slice A) : nat :=
  match s with
  | None => 0
  | Some l => length l
  end.

(** Package [github.com/pkg/errors]: an error is a message, possibly wrapping
    a cause. *)
Module errors.

Inductive error :=
| New (message : string)
| Wrap (err : error) (message : string).

(** The [Error()] string of the value. *)
Fixpoint Error (e : error) : string :=
  match e with
  | New message => message
  | Wrap err message => message ++ ": " ++ Error err
  end.

End errors.

Abbreviation error := errors.error.

(** Package [github.com/docker/go-connections/nat]. *)
Module natports.

(** [type Port string] *)
Definition Port := string.

Record PortBinding := {
  HostIP : string;
  HostPort : string
}.

End natports.

(** [type PortMap map[Port][]PortBinding] *)
Abbreviation PortMap := (gmap string (list natports.PortBinding)).

(** Handles of the engine: a connected client, a readable stream, a network
    connection.  Go holds them behind pointers or interfaces, which can be
    [nil]. *)
Record Client := { client_handle : nat }.
Record Reader := { reader_handle : nat }.
Record Conn := { conn_handle : nat }.

(** Package [github.com/docker/docker/api/types/container]; only the fields
    the program sets are kept, every other field has its zero value. *)
Module container.

Record Config := {
  AttachStdout : bool;
  AttachStderr : bool;
  Env : slice string;
  Image : string
}.

Record HostConfig : Type := {
  PortBindings : PortMap;
  Binds : slice string
}.

Record CreateResponse := {
  ID : string;
  Warnings : slice string
}.

End container.

(** Package [github.com/docker/docker/api/types]. *)
Module types.

Record ExecConfig := {
  AttachStdout : bool;
  AttachStderr : bool;
  Cmd : slice string
}.

Record IDResponse := { ID : string }.

Record HijackedResponse := {
  Conn : option Conn;
  Reader : option Reader
}.

End types.

(** ** The configuration record *)

Record Container := {
  ImageToPull : string;
  HostPort : string;
  ContainerPort : string;
  ContainerProtocol : string;
  BindHostConfig : slice string;
  Env : slice string;
  Cmd : slice string;
  Sleep : Z;
  client : option Client;
  id : string
}.

(** ** Option mutators: each one assigns a single field of the record. *)

Definition WithContainerProtocol (protocol : string) (c : Container) : Container :=
  {| ImageToPull := ImageToPull c; HostPort := HostPort c;
     ContainerPort := ContainerPort c; ContainerProtocol := protocol;
     BindHostConfig := BindHostConfig c; Env := Env c; Cmd := Cmd c;
     Sleep := Sleep c; client := client c; id := id c |}.

Definition WithHostPort (hostPort : string) (c : Container) : Container :=
  {| ImageToPull := ImageToPull c; HostPort := hostPort;
     ContainerPort := ContainerPort c; ContainerProtocol := ContainerProtocol c;
     BindHostConfig := BindHostConfig c; Env := Env c; Cmd := Cmd c;
     Sleep := Sleep c; client := client c; id := id c |}.

Definition WithContainerPort (containerPort : string) (c : Container) : Container :=
  {| ImageToPull := ImageToPull c; HostPort := HostPort c;
     ContainerPort := containerPort; ContainerProtocol := ContainerProtocol c;
     BindHostConfig := BindHostConfig c; Env := Env c; Cmd := Cmd c;
     Sleep := Sleep c; client := client c; id := id c |}.

Definition WithBindHostConfig (bindHostConfig : slice string) (c : Container) : Container :=
  {| ImageToPull := ImageToPull c; HostPort := HostPort c;
     ContainerPort := ContainerPort c; ContainerProtocol := ContainerProtocol c;
     BindHostConfig := bindHostConfig; Env := Env c; Cmd := Cmd c;
     Sleep := Sleep c; client := client c; id := id c |}.

Definition WithEnv (env : slice string) (c : Container) : Container :=
  {| ImageToPull := ImageToPull c; HostPort := HostPort c;
     ContainerPort := ContainerPort c; ContainerProtocol := ContainerProtocol c;
     BindHostConfig := BindHostConfig c; Env := env; Cmd := Cmd c;
     Sleep := Sleep c; client := client c; id := id c |}.

Definition WithCmd (cmd : slice string) (c : Container) : Container :=
  {| ImageToPull := ImageToPull c; HostPort := HostPort c;
     ContainerPort := ContainerPort c; ContainerProtocol := ContainerProtocol c;
     BindHostConfig := BindHostConfig c; Env := Env c; Cmd := cmd;
     Sleep := Sleep c; client := client c; id := id c |}.

Definition WithSleep (sleepTime : Z) (c : Container) : Container :=
  {| ImageToPull := ImageToPull c; HostPort := HostPort c;
     ContainerPort := ContainerPort c; ContainerProtocol := ContainerProtocol c;
     BindHostConfig := BindHostConfig c; Env := Env c; Cmd := Cmd c;
     Sleep := sleepTime; client := client c; id := id c |}.

(** ** The constructor *)

(** The [for _, opt := range options { opt(conf) }] loop. *)
Definition apply_options (options : list (Container -> Container)) (conf : Container) : Container :=
  fold_left (fun conf opt => opt conf) options conf.

(** [NewContainer] returns a pair: the pointer to the new record ([nil] on
    failure) and the error. *)
Definition NewContainer (imageToPull containerPort : string)
    (options : list (Container -> Container)) : option Container * option error :=
  if String.eqb imageToPull "" then
    (None, Some (errors.New "imageToPull cannot be empty"))
  else if String.eqb containerPort "" then
    (None, Some (errors.New "containerPort cannot be empty"))
  else
    let conf :=
      {| ImageToPull := imageToPull;
         HostPort := "9876";
         ContainerPort := containerPort;
         ContainerProtocol := "tcp";
         BindHostConfig := None; Env := None; Cmd := None;
         Sleep := 0%Z; client := None; id := "" |} in
    (Some (apply_options options conf), None).

(** ** Calls to the outside world *)

(** One constructor per call the package makes.  The receiver [cli] of a
    client method is the pointer the program holds; the constant arguments the
    source passes ([context.Background()], the empty option structs, the [nil]
    network and platform configuration and the empty container name of
    [ContainerCreate]) are left out.  A call answers by returning: a panic
    inside a collaborator, such as the one a client method raises on a nil
    receiver, has no counterpart here. *)
Inductive Op :=
| NewClientWithOpts
| NewPort (proto port : string)
| ImagePull (cli : option Client) (refStr : string)
| ContainerCreate (cli : option Client) (config : container.Config)
    (hostConfig : container.HostConfig)
| ContainerStart (cli : option Client) (containerID : string)
| time_Sleep (d : Z)
| ContainerExecCreate (cli : option Client) (containerID : string)
    (config : types.ExecConfig)
| ContainerExecAttach (cli : option Client) (execID : string)
| ContainerExecStart (cli : option Client) (execID : string)
| ioutil_ReadAll (r : option Reader)
| Close (response : types.HijackedResponse)
| log_Println (v : string)
| log_Printf (format : string) (v : error)
| ContainerStop (cli : option Client) (containerID : string)
| ContainerRemove (cli : option Client) (containerID : string).

(** What each call returns to the program. *)
Definition Ans (o : Op) : Type :=
  match o with
  | NewClientWithOpts => option Client * option error
  | NewPort _ _ => natports.Port * option error
  | ImagePull _ _ => option Reader * option error
  | ContainerCreate _ _ _ => container.CreateResponse * option error
  | ContainerStart _ _ => option error
  | time_Sleep _ => unit
  | ContainerExecCreate _ _ _ => types.IDResponse * option error
  | ContainerExecAttach _ _ => types.HijackedResponse * option error
  | ContainerExecStart _ _ => option error
  | ioutil_ReadAll _ => string * option error
  | Close _ => unit
  | log_Println _ => unit
  | log_Printf _ _ => unit
  | ContainerStop _ _ => option error
  | ContainerRemove _ _ => option error
  end.

(** The error value a call came back with, [None] for [nil]. *)
Definition failure (o : Op) : Ans o -> option error :=
  match o with
  | NewClientWithOpts => snd
  | NewPort _ _ => snd
  | ImagePull _ _ => snd
  | ContainerCreate _ _ _ => snd
  | ContainerStart _ _ => fun err => err
  | time_Sleep _ => fun _ => None
  | ContainerExecCreate _ _ _ => snd
  | ContainerExecAttach _ _ => snd
  | ContainerExecStart _ _ => fun err => err
  | ioutil_ReadAll _ => snd
  | Close _ => fun _ => None
  | log_Println _ => fun _ => None
  | log_Printf _ _ => fun _ => None
  | ContainerStop _ _ => fun err => err
  | ContainerRemove _ _ => fun err => err
  end.

(** ** Programs *)

Inductive Prog (A : Type) : Type :=
| Ret (a : A)
| Do (o : Op) (k : Ans o -> Prog A).

Arguments Ret {A} a.
Arguments Do {A} o k.

Fixpoint bind {A B : Type} (p : Prog A) (f : A -> Prog B) : Prog B :=
  match p with
  | Ret a => f a
  | Do o k => Do o (fun x => bind (k x) f)
  end.

Definition call (o : Op) : Prog (Ans o) := Do o Ret.

Notation "'let*' x ':=' p 'in' q" := (bind p (fun x => q))
  (at level 10, x pattern, p at level 200, q at level 200).

(** [defer o] in front of [body]: the deferred call runs when the function
    returns, after the returned value has been fixed. *)
Definition defer {A : Type} (o : Op) (body : Prog A) : Prog A :=
  let* r := body in
  let* _ := call o in
  Ret r.

(** ** The operations of the package *)

Definition executeCommands (cli : option Client) (id : string) (cmd : slice string)
    : Prog (option error) :=
  match cmd with
  | None => Ret None
  | Some _ =>
    let execConfig :=
      {| types.AttachStdout := true;
         types.AttachStderr := true;
         types.Cmd := cmd |} in
    let* (execID, err) := call (ContainerExecCreate cli id execConfig) in
    match err with
    | Some err => Ret (Some (errors.Wrap err "unable to create exec configuration"))
    | None =>
      let* (response, err) := call (ContainerExecAttach cli (types.ID execID)) in
      match err with
      | Some err => Ret (Some (errors.Wrap err "unable to attach connection"))
      | None =>
        defer (Close response)
          (let* err := call (ContainerExecStart cli (types.ID execID)) in
           match err with
           | Some err => Ret (Some (errors.Wrap err "unable to start exec"))
           | None =>
             let* (data, _) := call (ioutil_ReadAll (types.Reader response)) in
             let* _ := call (log_Println data) in
             Ret None
           end)
      end
    end
  end.

(** The method mutates its receiver; the record after the call is returned
    next to the error. *)
Definition CreateContainer (c : Container) : Prog (Container * option error) :=
  let* (cli, err) := call NewClientWithOpts in
  match err with
  | Some err => Ret (c, Some (errors.Wrap err "unable to create docker client"))
  | None =>
    let hostBinding :=
      {| natports.HostIP := "127.0.0.1";
         natports.HostPort := HostPort c |} in
    let* (containerPort, err) := call (NewPort (ContainerProtocol c) (ContainerPort c)) in
    match err with
    | Some err => Ret (c, Some (errors.Wrap err "unable to get port"))
    | None =>
      let portBinding : PortMap := {[ containerPort := [hostBinding] ]} in
      let* (_, err) := call (ImagePull cli (ImageToPull c)) in
      match err with
      | Some err => Ret (c, Some (errors.Wrap err "unable to pull image"))
      | None =>
        let* (cont, err) := call (ContainerCreate cli
            {| container.AttachStdout := true;
               container.AttachStderr := true;
               container.Env := Env c;
               container.Image := ImageToPull c |}
            {| container.PortBindings := portBinding;
               container.Binds := BindHostConfig c |}) in
        match err with
        | Some err => Ret (c, Some (errors.Wrap err "unable to create container"))
        | None =>
          let* err := call (ContainerStart cli (container.ID cont)) in
          match err with
          | Some err => Ret (c, Some (errors.Wrap err "unable to start container"))
          | None =>
            let* _ := call (time_Sleep (Sleep c)) in
            let* err := executeCommands cli (container.ID cont) (Cmd c) in
            match err with
            | Some err => Ret (c, Some (errors.Wrap err "commands were not executed"))
            | None =>
              let c := {| ImageToPull := ImageToPull c; HostPort := HostPort c;
                          ContainerPort := ContainerPort c;
                          ContainerProtocol := ContainerProtocol c;
                          BindHostConfig := BindHostConfig c; Env := Env c;
                          Cmd := Cmd c; Sleep := Sleep c;
                          client := client c; id := container.ID cont |} in
              let c := {| ImageToPull := ImageToPull c; HostPort := HostPort c;
                          ContainerPort := ContainerPort c;
                          ContainerProtocol := ContainerProtocol c;
                          BindHostConfig := BindHostConfig c; Env := Env c;
                          Cmd := Cmd c; Sleep := Sleep c;
                          client := cli; id := id c |} in
              Ret (c, None)
            end
          end
        end
      end
    end
  end.

Definition Stop (c : Container) : Prog unit :=
  let* err := call (ContainerStop (client c) (id c)) in
  let* _ := match err with
       | Some err => call (log_Printf "unable to stop container: %v" err)
       | None => Ret tt
       end in
  let* err := call (ContainerRemove (client c) (id c)) in
  match err with
  | Some err => call (log_Printf "unable to remove container: %v" err)
  | None => Ret tt
  end.

(** ** Running a program against a stub of the outside world *)

(** A call together with the answer it got. *)
Record Entry := { op : Op; ans : Ans op }.

Definition failed (e : Entry) : option error := failure (op e) (ans e).

Section Run.

Context {World : Type}.
Variable h : forall o : Op, World -> Ans o * World.

Fixpoint run {A : Type} (p : Prog A) (w : World) : A * list Entry * World :=
  match p with
  | Ret a => (a, [], w)
  | Do o k =>
    let '(x, w1) := h o w in
    let '(a, t, w2) := run (k x) w1 in
    (a, {| op := o; ans := x |} :: t, w2)
  end.

Definition returned {A : Type} (p : Prog A) (w : World) : A := (run p w).1.1.
Definition trace {A : Type} (p : Prog A) (w : World) : list Entry := (run p w).1.2.

End Run.

(** ** A scripted stub

    A concrete handler used to run the programs on examples: every call
    succeeds with a fixed answer unless the script [fails] names an error for
    it; the world is the number of calls answered so far. *)

Definition answer (o : Op) (err : option error) : Ans o :=
  match o with
  | NewClientWithOpts => (Some {| client_handle := 1 |}, err)
  | NewPort proto port => (port ++ "/" ++ proto, err)
  | ImagePull _ _ => (Some {| reader_handle := 2 |}, err)
  | ContainerCreate _ _ _ => ({| container.ID := "c0ffee"; container.Warnings := None |}, err)
  | ContainerStart _ _ => err
  | time_Sleep _ => tt
  | ContainerExecCreate _ _ _ => ({| types.ID := "e1" |}, err)
  | ContainerExecAttach _ _ =>
    ({| types.Conn := Some {| conn_handle := 3 |};
        types.Reader := Some {| reader_handle := 4 |} |}, err)
  | ContainerExecStart _ _ => err
  | ioutil_ReadAll _ => ("done", err)
  | Close _ => tt
  | log_Println _ => tt
  | log_Printf _ _ => tt
  | ContainerStop _ _ => err
  | ContainerRemove _ _ => err
  end.

Definition stub (fails : Op -> option error) (o : Op) (w : nat) : Ans o * nat :=
  (answer o (fails o), S w).

Definition all_succeed (o : Op) : option error := None.

(** ** Reified mutators, to speak of "distinct mutators" *)

Inductive Mutator :=
| MContainerProtocol (protocol : string)
| MHostPort (hostPort : string)
| MContainerPort (containerPort : string)
| MBindHostConfig (bindHostConfig : slice string)
| MEnv (env : slice string)
| MCmd (cmd : slice string)
| MSleep (sleepTime : Z).

Definition mutator (m : Mutator) : Container -> Container :=
  match m with
  | MContainerProtocol protocol => WithContainerProtocol protocol
  | MHostPort hostPort => WithHostPort hostPort
  | MContainerPort containerPort => WithContainerPort containerPort
  | MBindHostConfig bindHostConfig => WithBindHostConfig bindHostConfig
  | MEnv env => WithEnv env
  | MCmd cmd => WithCmd cmd
  | MSleep sleepTime => WithSleep sleepTime
  end.

(** Which of the seven functions a mutator was made by. *)
Definition mutator_index (m : Mutator) : nat :=
  match m with
  | MContainerProtocol _ => 0
  | MHostPort _ => 1
  | MContainerPort _ => 2
  | MBindHostConfig _ => 3
  | MEnv _ => 4
  | MCmd _ => 5
  | MSleep _ => 6
  end.

(** ** The steps of provisioning and teardown *)

Inductive Step :=
| Connect
| ResolvePort
| PullImage
| Create
| Start
| Wait
| Exec
| Teardown.

(** The step a call belongs to.  The exec step is made of the calls of
    [executeCommands]; stopping, removing and their log lines are teardown. *)
Definition step_of (o : Op) : Step :=
  match o with
  | NewClientWithOpts => Connect
  | NewPort _ _ => ResolvePort
  | ImagePull _ _ => PullImage
  | ContainerCreate _ _ _ => Create
  | ContainerStart _ _ => Start
  | time_Sleep _ => Wait
  | ContainerExecCreate _ _ _ => Exec
  | ContainerExecAttach _ _ => Exec
  | ContainerExecStart _ _ => Exec
  | ioutil_ReadAll _ => Exec
  | Close _ => Exec
  | log_Println _ => Exec
  | log_Printf _ _ => Teardown
  | ContainerStop _ _ => Teardown
  | ContainerRemove _ _ => Teardown
  end.

Definition step_number (s : Step) : nat :=
  match s with
  | Connect => 1
  | ResolvePort => 2
  | PullImage => 3
  | Create => 4
  | Start => 5
  | Wait => 6
  | Exec => 7
  | Teardown => 8
  end.

(** The message [CreateContainer] wraps around the failure of a step. *)
Definition step_message (s : Step) : option string :=
  match s with
  | Connect => Some "unable to create docker client"
  | ResolvePort => Some "unable to get port"
  | PullImage => Some "unable to pull image"
  | Create => Some "unable to create container"
  | Start => Some "unable to start container"
  | Exec => Some "commands were not executed"
  | Wait => None
  | Teardown => None
  end.

(** The six single-call steps, in the order of the specification. *)
Definition provision_order : list Step :=
  [Connect; ResolvePort; PullImage; Create; Start; Wait].

Definition steps (t : list Entry) : list Step := map (fun e => step_of (op e)) t.

(** [has_cause e cause]: [cause] is [e] or is wrapped somewhere inside [e]. *)
Fixpoint has_cause (e cause : error) : Prop :=
  e = cause \/
  match e with
  | errors.New _ => False
  | errors.Wrap err _ => has_cause err cause
  end.

Definition is_ReadAll (o : Op) : bool :=
  match o with
  | ioutil_ReadAll _ => true
  | _ => false
  end.

Definition is_Close (o : Op) : bool :=
  match o with
  | Close _ => true
  | _ => false
  end.

(** The streaming connection an entry acquired: the response of a
    [ContainerExecAttach] that came back without error. *)
Definition attached (e : Entry) : option types.HijackedResponse :=
  match op e as o return Ans o -> option types.HijackedResponse with
  | ContainerExecAttach _ _ => fun a =>
    match a.2 with
    | None => Some a.1
    | Some _ => None
    end
  | _ => fun _ => None
  end (ans e).

(** The line [Stop] logs for the outcome of a teardown call. *)
Definition logged (format : string) (err : option error) : list Entry :=
  match err with
  | Some err => [{| op := log_Printf format err; ans := tt |}]
  | None => []
  end.

(** The record after a successful [CreateContainer]. *)
Definition provisioned (c : Container) (cli : option Client) (containerID : string)
    : Container :=
  {| ImageToPull := ImageToPull c; HostPort := HostPort c;
     ContainerPort := ContainerPort c; ContainerProtocol := ContainerProtocol c;
     BindHostConfig := BindHostConfig c; Env := Env c; Cmd := Cmd c;
     Sleep := Sleep c; client := cli; id := containerID |}.

(** ** Example data *)

Definition mysql : Container :=
  {| ImageToPull := "mysql:8"; HostPort := "13306";
     ContainerPort := "3306"; ContainerProtocol := "tcp";
     BindHostConfig := None;
     Env := Some ["MYSQL_ROOT_PASSWORD=secret"];
     Cmd := None; Sleep := 0%Z; client := None; id := "" |}.

Definition pull_fails (o : Op) : option error :=
  match o with
  | ImagePull _ _ => Some (errors.New "no such image")
  | _ => None
  end.

Definition exec_start_fails (o : Op) : option error :=
  match o with
  | ContainerExecStart _ _ => Some (errors.New "exec refused")
  | _ => None
  end.

Definition teardown_fails (o : Op) : option error :=
  match o with
  | ContainerStop _ _ => Some (errors.New "cannot stop")
  | ContainerRemove _ _ => Some (errors.New "cannot remove")
  | _ => None
  end.

(** The message [executeCommands] wraps around the failure of one of its
    calls. *)
Definition exec_message (o : Op) : option string :=
  match o with
  | ContainerExecCreate _ _ _ => Some "unable to create exec configuration"
  | ContainerExecAttach _ _ => Some "unable to attach connection"
  | ContainerExecStart _ _ => Some "unable to start exec"
  | _ => None
  end.

Definition start_fails (o : Op) : option error :=
  match o with
  | ContainerStart _ _ => Some (errors.New "port is already allocated")
  | _ => None
  end.

Definition read_fails (o : Op) : option error :=
  match o with
  | ioutil_ReadAll _ => Some (errors.New "connection reset")
  | _ => None
  end.

Definition attach_fails (o : Op) : option error :=
  match o with
  | ContainerExecAttach _ _ => Some (errors.New "no such exec")
  | _ => None
  end.

(** [mysql] with a post-start command. *)
Definition mysql_init : Container := WithCmd (Some ["mysql"; "-e"; "SELECT 1"]) mysql.

(** The six calls of a run of [CreateContainer] that got past the start,
    with the answers they came back with. *)
Definition provision_calls (c : Container) (cli : option Client)
    (port : natports.Port) (stream : option Reader)
    (cont : container.CreateResponse) : list Entry :=
  [{| op := NewClientWithOpts; ans := (cli, None) |};
   {| op := NewPort (ContainerProtocol c) (ContainerPort c); ans := (port, None) |};
   {| op := ImagePull cli (ImageToPull c); ans := (stream, None) |};
   {| op := ContainerCreate cli
              {| container.AttachStdout := true;
                 container.AttachStderr := true;
                 container.Env := Env c;
                 container.Image := ImageToPull c |}
              {| container.PortBindings :=
                   {[ port := [{| natports.HostIP := "127.0.0.1";
                                  natports.HostPort := HostPort c |}] ]};
                 container.Binds := BindHostConfig c |};
      ans := (cont, None) |};
   {| op := ContainerStart cli (container.ID cont); ans := None |};
   {| op := time_Sleep (Sleep c); ans := tt |}].

(** The six calls of a run of [executeCommands] in which the exec was
    started; the read of the output may have come back with an error. *)
Definition exec_calls (cli : option Client) (containerID : string)
    (cmd : list string) (execID : types.IDResponse)
    (response : types.HijackedResponse) (data : string)
    (readErr : option error) : list Entry :=
  [{| op := ContainerExecCreate cli containerID
              {| types.AttachStdout := true; types.AttachStderr := true;
                 types.Cmd := Some cmd |};
      ans := (execID, None) |};
   {| op := ContainerExecAttach cli (types.ID execID); ans := (response, None) |};
   {| op := ContainerExecStart cli (types.ID execID); ans := None |};
   {| op := ioutil_ReadAll (types.Reader response); ans := (data, readErr) |};
   {| op := log_Println data; ans := tt |};
   {| op := Close response; ans := tt |}].

(** ** Proof automation *)

(** Case analysis on the answer of the next call of the program. *)
Ltac next_call h :=
  match goal with
  | |- context [h ?o ?w] =>
    let a := fresh "a" in
    let w' := fresh "w" in
    destruct (h o w) as [a w'] eqn:?; simpl in a;
    repeat match goal with
           | x : (_ * option _)%type |- _ => destruct x as [? [?|]]
           | x : option error |- _ => destruct x as [?|]
           | x : unit |- _ => destruct x
           end;
    simpl
  end.

Ltac all_calls h := simpl; repeat next_call h.

(** Membership of an entry, possibly with holes, in an explicit trace. *)
Ltac find_entry :=
  first [ apply list_elem_of_here | apply list_elem_of_further; find_entry ].

(** Case analysis on the membership of an entry in an explicit trace. *)
Ltac each_entry H :=
  repeat (apply elem_of_cons in H as [-> | H]);
  [.. | apply elem_of_nil in H; destruct H].

(** * Properties of the constructor *)

Lemma eqb_empty_false (s : string) : s <> "" -> String.eqb s "" = false.
Proof. intros H. apply String.eqb_neq. exact H. Qed.

Lemma NewContainer_ok (imageToPull containerPort : string) options :
  imageToPull <> "" -> containerPort <> "" ->
  NewContainer imageToPull containerPort options =
  (Some (apply_options options
           {| ImageToPull := imageToPull; HostPort := "9876";
              ContainerPort := containerPort; ContainerProtocol := "tcp";
              BindHostConfig := None; Env := None; Cmd := None;
              Sleep := 0%Z; client := None; id := "" |}), None).
Proof.
  intros Hi Hp. unfold NewContainer.
  rewrite (eqb_empty_false _ Hi), (eqb_empty_false _ Hp). reflexivity.
Qed.

(** C2. [NewContainer] fails, with no instance, whenever the image or the
    container port is the empty string, whatever the options; with both
    non-empty and no option it yields the defaults: host port "9876",
    protocol "tcp", nil bindings, environment and command, zero delay. *)
Theorem NewContainer_validation_and_defaults :
  (forall (imageToPull containerPort : string) options,
      imageToPull = "" \/ containerPort = "" ->
      exists err, NewContainer imageToPull containerPort options = (None, Some err)) /\
  (forall imageToPull containerPort : string,
      imageToPull <> "" -> containerPort <> "" ->
      NewContainer imageToPull containerPort [] =
      (Some {| ImageToPull := imageToPull; HostPort := "9876";
               ContainerPort := containerPort; ContainerProtocol := "tcp";
               BindHostConfig := None; Env := None; Cmd := None;
               Sleep := 0%Z; client := None; id := "" |}, None)).
Proof.
  split.
  - intros imageToPull containerPort options [-> | ->]; unfold NewContainer.
    + eexists. reflexivity.
    + destruct (String.eqb imageToPull ""); eexists; reflexivity.
  - intros imageToPull containerPort Hi Hp.
    rewrite NewContainer_ok by assumption. reflexivity.
Qed.

Lemma NewContainer_validation_and_defaults_witness :
  (exists err, NewContainer "" "3306" [WithHostPort "13306"] = (None, Some err)) /\
  (exists err, NewContainer "mysql:8" "" [] = (None, Some err)) /\
  NewContainer "mysql:8" "3306" [] =
  (Some {| ImageToPull := "mysql:8"; HostPort := "9876";
           ContainerPort := "3306"; ContainerProtocol := "tcp";
           BindHostConfig := None; Env := None; Cmd := None;
           Sleep := 0%Z; client := None; id := "" |}, None).
Proof.
  destruct NewContainer_validation_and_defaults as [Hbad Hgood].
  split; [apply Hbad; left; reflexivity |].
  split; [apply Hbad; right; reflexivity |].
  apply Hgood; discriminate.
Defined.

(** Two mutators made by different functions assign different fields. *)
Lemma mutator_swap (m1 m2 : Mutator) (c : Container) :
  mutator_index m1 <> mutator_index m2 ->
  mutator m2 (mutator m1 c) = mutator m1 (mutator m2 c).
Proof.
  destruct m1, m2; simpl; intros H; try reflexivity; congruence.
Qed.

(** C9. Two distinct mutators, with any arguments, give the same
    configuration in either order when passed to [NewContainer]. *)
Theorem mutators_commute (imageToPull containerPort : string) (m1 m2 : Mutator) :
  mutator_index m1 <> mutator_index m2 ->
  NewContainer imageToPull containerPort [mutator m1; mutator m2] =
  NewContainer imageToPull containerPort [mutator m2; mutator m1].
Proof.
  intros H. unfold NewContainer.
  destruct (String.eqb imageToPull ""); [reflexivity |].
  destruct (String.eqb containerPort ""); [reflexivity |].
  simpl. rewrite (mutator_swap m1 m2) by exact H. reflexivity.
Qed.

Lemma mutators_commute_witness :
  NewContainer "mysql:8" "3306"
    [WithHostPort "13306"; WithEnv (Some ["MYSQL_ROOT_PASSWORD=secret"])] =
  NewContainer "mysql:8" "3306"
    [WithEnv (Some ["MYSQL_ROOT_PASSWORD=secret"]); WithHostPort "13306"].
Proof.
  apply (mutators_commute "mysql:8" "3306"
           (MHostPort "13306") (MEnv (Some ["MYSQL_ROOT_PASSWORD=secret"]))).
  simpl. lia.
Defined.

(** The same mutator twice does not commute: the last assignment wins. *)
Example same_mutator_last_wins :
  NewContainer "mysql:8" "3306" [WithHostPort "1"; WithHostPort "2"] <>
  NewContainer "mysql:8" "3306" [WithHostPort "2"; WithHostPort "1"].
Proof. discriminate. Qed.

(** C10. Only the two positional arguments are validated: with both
    non-empty the constructor succeeds for every list of options, also when
    an option then sets the container port or the host port to the empty
    string. *)
Theorem NewContainer_validates_positional_only (imageToPull containerPort : string) :
  imageToPull <> "" -> containerPort <> "" ->
  (forall options, exists c,
      NewContainer imageToPull containerPort options = (Some c, None)) /\
  (exists c, NewContainer imageToPull containerPort [WithContainerPort ""] = (Some c, None)
             /\ ContainerPort c = "") /\
  (exists c, NewContainer imageToPull containerPort [WithHostPort ""] = (Some c, None)
             /\ HostPort c = "").
Proof.
  intros Hi Hp. split; [| split].
  - intros options. rewrite NewContainer_ok by assumption. eexists. reflexivity.
  - rewrite NewContainer_ok by assumption. eexists. split; reflexivity.
  - rewrite NewContainer_ok by assumption. eexists. split; reflexivity.
Qed.

Lemma NewContainer_validates_positional_only_witness :
  exists c, NewContainer "mysql:8" "3306" [WithContainerPort ""] = (Some c, None)
            /\ ContainerPort c = "".
Proof.
  apply (NewContainer_validates_positional_only "mysql:8" "3306"); discriminate.
Defined.

(** * Properties of the effectful operations *)

Section Provisioning.

Context {World : Type}.
Variable h : forall o : Op, World -> Ans o * World.

Lemma has_cause_refl (e : error) : has_cause e e.
Proof. destruct e; simpl; left; reflexivity. Qed.

Lemma has_cause_wrap (e : error) (message : string) :
  has_cause (errors.Wrap e message) e.
Proof. simpl. right. apply has_cause_refl. Qed.

(** C1. The calls of [CreateContainer] follow the order connect, resolve
    port, pull, create, start, sleep, then the calls of the exec step.  When
    a call fails (the read of the exec output apart, whose error the code
    discards) the method returns an error that wraps the cause in the message
    of the step of that call, and no call of a later step is in the trace.  A
    run that returns no error has gone through all six single-call steps.
    Every step is performed: when no call fails (the read apart) the method
    returns no error and the run is the six calls followed, when a command is
    configured, by exec-create, attach, start, read, log and close.  No error
    is invented: an error is returned only when the last call made, the
    deferred close aside, failed, and that call is never the read. *)
Theorem CreateContainer_steps_and_errors (w : World) (c : Container) :
  let t := trace h (CreateContainer c) w in
  let err := (returned h (CreateContainer c) w).2 in
  steps t = (take (length t) provision_order ++ replicate (length t - 6) Exec)%list /\
  (forall (e : Entry) (cause : error),
      e ∈ t -> failed e = Some cause -> is_ReadAll (op e) = false ->
      exists (msg : string) (cause' : error),
        step_message (step_of (op e)) = Some msg /\
        err = Some (errors.Wrap cause' msg) /\
        has_cause cause' cause /\
        forall e' : Entry, e' ∈ t ->
          step_number (step_of (op e')) <= step_number (step_of (op e))) /\
  (err = None -> take 6 (steps t) = provision_order) /\
  ((forall e : Entry, e ∈ t -> is_ReadAll (op e) = false -> failed e = None) ->
   err = None /\
   exists (cli : option Client) (port : natports.Port) (stream : option Reader)
          (cont : container.CreateResponse),
     match Cmd c with
     | None => t = provision_calls c cli port stream cont
     | Some cmd =>
       exists (execID : types.IDResponse) (response : types.HijackedResponse)
              (data : string) (readErr : option error),
         t = (provision_calls c cli port stream cont ++
              exec_calls cli (container.ID cont) cmd execID response data readErr)%list
     end) /\
  (forall returnedErr : error, err = Some returnedErr ->
   exists (e : Entry) (cause cause' : error) (msg : string),
     last (filter (fun e' => is_Close (op e') = false) t) = Some e /\
     is_ReadAll (op e) = false /\
     failed e = Some cause /\
     step_message (step_of (op e)) = Some msg /\
     returnedErr = errors.Wrap cause' msg /\
     has_cause cause' cause).
Proof.
  unfold trace, returned, CreateContainer, executeCommands, defer.
  destruct c as [? ? ? ? ? ? cmd ? ? ?].
  destruct cmd; all_calls h.
  all: split; [reflexivity |].
  all: split;
    [ intros entry cause Hin Hfail Hread;
      each_entry Hin; try discriminate;
      unfold failed in Hfail; simpl in Hfail; injection Hfail as <-;
      eexists _, _;
      (split; [reflexivity |]); (split; [reflexivity |]);
      (split; [first [ apply has_cause_refl | apply has_cause_wrap ] |]);
      intros entry' Hin'; each_entry Hin'; simpl; lia |].
  all: split; [first [ reflexivity | discriminate ] |].
  all: split.
  all: try (intros returnedErr Herr; try discriminate;
            injection Herr as <-;
            eexists _, _, _, _;
            repeat (split; [reflexivity |]);
            first [ apply has_cause_refl | apply has_cause_wrap ]).
  all: intros Hall.
  all: try (split; [reflexivity |];
            eexists _, _, _, _; simpl;
            first [ reflexivity | eexists _, _, _, _; reflexivity ]).
  all: exfalso; rewrite <- Forall_forall in Hall.
  all: repeat (apply Forall_cons in Hall as [? Hall]).
  all: unfold failed in *; simpl in *.
  all: match goal with H : _ = false -> Some _ = None |- _ => discriminate (H eq_refl) end.
Qed.

(** The seven mutators leave the unexported fields alone. *)
Lemma apply_options_identity (ms : list Mutator) (conf : Container) :
  client (apply_options (map mutator ms) conf) = client conf /\
  id (apply_options (map mutator ms) conf) = id conf.
Proof.
  revert conf. induction ms as [| m ms IH]; intros conf; [split; reflexivity |].
  simpl. destruct (IH (mutator m conf)) as [-> ->].
  destruct m; split; reflexivity.
Qed.

(** C3. A record built by [NewContainer] from the mutators has [client] and
    [id] unset.  [CreateContainer] leaves the record as it was on every path
    that returns an error, the failure of the post-start command included,
    and on success assigns [id] and [client] together, from the created
    container and the acquired client. *)
Theorem identity_set_only_on_success (w : World) (c : Container) :
  let t := trace h (CreateContainer c) w in
  let r := returned h (CreateContainer c) w in
  (forall (imageToPull containerPort : string) (ms : list Mutator) (conf : Container),
      NewContainer imageToPull containerPort (map mutator ms) = (Some conf, None) ->
      client conf = None /\ id conf = "") /\
  (forall err : error, r.2 = Some err -> r.1 = c) /\
  (r.2 = None ->
   exists (cli : option Client) (cont : container.CreateResponse),
     {| op := NewClientWithOpts; ans := (cli, None) |} ∈ t /\
     (exists config hostConfig,
         {| op := ContainerCreate cli config hostConfig; ans := (cont, None) |} ∈ t) /\
     r.1 = provisioned c cli (container.ID cont)).
Proof.
  split.
  { intros imageToPull containerPort ms conf. unfold NewContainer.
    destruct (String.eqb imageToPull ""); [discriminate |].
    destruct (String.eqb containerPort ""); [discriminate |].
    intros [= <-]. apply apply_options_identity. }
  unfold trace, returned, CreateContainer, executeCommands, defer.
  destruct c as [? ? ? ? ? ? cmd ? ? ?].
  destruct cmd; all_calls h.
  all: split; [intros; first [ reflexivity | discriminate ] |].
  all: intros Hok; try discriminate.
  all: eexists _, _; split; [find_entry |].
  all: split; [eexists _, _; find_entry | reflexivity].
Qed.

(** C5. With a nil command no call of the exec step is made, and when every
    call that is made succeeds the method returns no error, after exactly the
    six single-call steps. *)
Theorem no_command_no_exec (w : World) (c : Container) :
  Cmd c = None ->
  let t := trace h (CreateContainer c) w in
  let r := returned h (CreateContainer c) w in
  (forall e : Entry, e ∈ t -> step_of (op e) <> Exec) /\
  ((forall e : Entry, e ∈ t -> failed e = None) ->
   r.2 = None /\ steps t = provision_order).
Proof.
  destruct c as [? ? ? ? ? ? cmd ? ? ?]. simpl. intros ->.
  unfold trace, returned, CreateContainer, executeCommands.
  all_calls h.
  all: split; [intros entry Hin; each_entry Hin; discriminate |].
  all: intros Hall; try (split; reflexivity).
  all: exfalso; rewrite <- Forall_forall in Hall.
  all: repeat (apply Forall_cons in Hall as [? Hall]); discriminate.
Qed.

(** C6. Every [ContainerCreate] call of [CreateContainer] carries: stdout
    and stderr attached, the configured environment and image, the configured
    binds, and a port map with the single key answered by
    [nat.NewPort(ContainerProtocol, ContainerPort)], bound to host IP
    127.0.0.1 and the configured host port. *)
Theorem create_call_arguments (w : World) (c : Container) :
  let t := trace h (CreateContainer c) w in
  forall (e : Entry) cli config hostConfig,
    e ∈ t -> op e = ContainerCreate cli config hostConfig ->
    config = {| container.AttachStdout := true;
                container.AttachStderr := true;
                container.Env := Env c;
                container.Image := ImageToPull c |} /\
    exists port : natports.Port,
      {| op := NewPort (ContainerProtocol c) (ContainerPort c); ans := (port, None) |} ∈ t /\
      hostConfig =
      {| container.PortBindings :=
           {[ port := [{| natports.HostIP := "127.0.0.1";
                          natports.HostPort := HostPort c |}] ]};
         container.Binds := BindHostConfig c |}.
Proof.
  unfold trace, CreateContainer, executeCommands, defer.
  destruct c as [? ? ? ? ? ? cmd ? ? ?].
  destruct cmd; all_calls h.
  all: intros entry cli config hostConfig Hin Hop.
  all: each_entry Hin; simpl in Hop; try discriminate.
  all: injection Hop as <- <- <-.
  all: split; [reflexivity |].
  all: eexists; split; [find_entry | reflexivity].
Qed.

(** C8. In [executeCommands], once the attach call has come back without
    error, the last call of the function closes the acquired response, and it
    is the only close: whether the exec start fails, the read of the output
    fails, or all succeed. *)
Theorem attached_connection_released (w : World) (cli : option Client)
    (containerID : string) (cmd : slice string) :
  let t := trace h (executeCommands cli containerID cmd) w in
  forall (e : Entry) (response : types.HijackedResponse),
    e ∈ t -> attached e = Some response ->
    last t = Some {| op := Close response; ans := tt |} /\
    length (filter (fun e' => is_Close (op e') = true) t) = 1.
Proof.
  unfold trace, executeCommands, defer.
  destruct cmd; all_calls h.
  all: intros entry response Hin Hatt.
  all: each_entry Hin; try discriminate.
  all: injection Hatt as <-; split; reflexivity.
Qed.

(** C4. [Stop] calls [ContainerStop] and then [ContainerRemove], once each,
    on the stored client with the stored container ID, whatever the stop call
    answers; a failure only adds a log line after the failed call, and the
    method returns nothing. *)
Theorem Stop_stops_then_removes (w : World) (c : Container) :
  exists stopErr removeErr : option error,
    trace h (Stop c) w =
    ({| op := ContainerStop (client c) (id c); ans := stopErr |}
       :: logged "unable to stop container: %v" stopErr ++
     {| op := ContainerRemove (client c) (id c); ans := removeErr |}
       :: logged "unable to remove container: %v" removeErr)%list /\
    returned h (Stop c) w = tt.
Proof.
  unfold trace, returned, Stop.
  all_calls h.
  all: first [ exists None, None; split; reflexivity
             | eexists None, (Some _); split; reflexivity
             | eexists (Some _), None; split; reflexivity
             | eexists (Some _), (Some _); split; reflexivity ].
Qed.

End Provisioning.

(** * The operations on the scripted stub *)

Lemma CreateContainer_steps_and_errors_witness :
  (exists (msg : string) (cause' : error),
      step_message PullImage = Some msg /\
      (returned (stub pull_fails) (CreateContainer mysql) 0).2 =
      Some (errors.Wrap cause' msg) /\
      has_cause cause' (errors.New "no such image") /\
      forall e' : Entry, e' ∈ trace (stub pull_fails) (CreateContainer mysql) 0 ->
        step_number (step_of (op e')) <= 3) /\
  (returned (stub read_fails) (CreateContainer mysql_init) 0).2 = None /\
  (exists (e : Entry) (cause : error),
      last (filter (fun e' => is_Close (op e') = false)
              (trace (stub exec_start_fails) (CreateContainer mysql_init) 0)) = Some e /\
      failed e = Some cause).
Proof.
  split; [| split].
  - apply (proj1 (proj2 (CreateContainer_steps_and_errors (stub pull_fails) 0 mysql))
             {| op := ImagePull (Some {| client_handle := 1 |}) "mysql:8";
                ans := (Some {| reader_handle := 2 |}, Some (errors.New "no such image")) |}).
    + vm_compute. find_entry.
    + reflexivity.
    + reflexivity.
  - apply (proj1 (proj2 (proj2 (proj2
             (CreateContainer_steps_and_errors (stub read_fails) 0 mysql_init))))).
    intros e He Hread. unfold trace in He. simpl in He.
    each_entry He; first [ reflexivity | discriminate Hread ].
  - destruct (proj2 (proj2 (proj2 (proj2
               (CreateContainer_steps_and_errors (stub exec_start_fails) 0 mysql_init))))
               (errors.Wrap (errors.Wrap (errors.New "exec refused") "unable to start exec")
                  "commands were not executed") eq_refl)
      as (e & cause & _ & _ & Hlast & _ & Hfail & _).
    exists e, cause. split; assumption.
Defined.

(** The read of the exec output belongs to the exec step, and its failure is
    not reported: on a run in which [ioutil.ReadAll] comes back with an
    error, a call of the exec step has failed and [CreateContainer] returns
    no error at all. *)
Lemma read_failure_not_reported :
  let t := trace (stub read_fails) (CreateContainer mysql_init) 0 in
  let err := (returned (stub read_fails) (CreateContainer mysql_init) 0).2 in
  ~ (forall (e : Entry) (cause : error),
        e ∈ t -> failed e = Some cause ->
        exists (msg : string) (cause' : error),
          step_message (step_of (op e)) = Some msg /\
          err = Some (errors.Wrap cause' msg)).
Proof.
  intros t err Hclaim.
  destruct (Hclaim
              {| op := ioutil_ReadAll (Some {| reader_handle := 4 |});
                 ans := ("done", Some (errors.New "connection reset")) |}
              (errors.New "connection reset"))
    as (msg & cause' & _ & Herr).
  - unfold t, trace. simpl. find_entry.
  - reflexivity.
  - discriminate Herr.
Qed.

Lemma identity_set_only_on_success_witness :
  (client mysql = None /\ id mysql = "") /\
  (returned (stub pull_fails) (CreateContainer mysql) 0).1 = mysql /\
  exists (cli : option Client) (cont : container.CreateResponse),
    {| op := NewClientWithOpts; ans := (cli, None) |}
      ∈ trace (stub all_succeed) (CreateContainer mysql) 0 /\
    (exists config hostConfig,
        {| op := ContainerCreate cli config hostConfig; ans := (cont, None) |}
          ∈ trace (stub all_succeed) (CreateContainer mysql) 0) /\
    (returned (stub all_succeed) (CreateContainer mysql) 0).1 =
    provisioned mysql cli (container.ID cont).
Proof.
  split; [| split].
  - apply (proj1 (identity_set_only_on_success (stub all_succeed) 0 mysql)
             "mysql:8" "3306"
             [MHostPort "13306"; MEnv (Some ["MYSQL_ROOT_PASSWORD=secret"])]).
    reflexivity.
  - apply (proj1 (proj2 (identity_set_only_on_success (stub pull_fails) 0 mysql))
             (errors.Wrap (errors.New "no such image") "unable to pull image")).
    reflexivity.
  - apply (proj2 (proj2 (identity_set_only_on_success (stub all_succeed) 0 mysql))).
    reflexivity.
Defined.

Lemma no_command_no_exec_witness :
  (returned (stub all_succeed) (CreateContainer mysql) 0).2 = None /\
  steps (trace (stub all_succeed) (CreateContainer mysql) 0) = provision_order.
Proof.
  apply (no_command_no_exec (stub all_succeed) 0 mysql eq_refl).
  intros e He. unfold trace in He. simpl in He.
  each_entry He; reflexivity.
Defined.

(** A command that is empty but not nil is a configured command: the guard of
    [executeCommands] tests [cmd == nil], not its length. *)
Example empty_command_still_execs :
  len (Cmd (WithCmd (Some []) mysql)) = 0 /\
  steps (trace (stub all_succeed) (CreateContainer (WithCmd (Some []) mysql)) 0) =
  (provision_order ++ [Exec; Exec; Exec; Exec; Exec; Exec])%list.
Proof. split; reflexivity. Qed.

(** The claim read on every empty command fails: with a command of length
    zero that is not nil, on a run in which every call succeeds, calls of the
    exec step are made. *)
Lemma empty_command_counterexample :
  let c := WithCmd (Some []) mysql in
  let t := trace (stub all_succeed) (CreateContainer c) 0 in
  len (Cmd c) = 0 /\
  forallb (fun e => match failed e with None => true | Some _ => false end) t = true /\
  ~ (forall e : Entry, e ∈ t -> step_of (op e) <> Exec).
Proof.
  intros c t. split; [reflexivity |]. split; [reflexivity |].
  intros Hclaim.
  apply (Hclaim
           {| op := ContainerExecStart (Some {| client_handle := 1 |}) "e1";
              ans := None |}).
  - unfold t, trace. simpl. find_entry.
  - reflexivity.
Qed.

Lemma create_call_arguments_witness :
  exists port : natports.Port,
    {| op := NewPort "tcp" "3306"; ans := (port, None) |}
      ∈ trace (stub all_succeed) (CreateContainer mysql) 0 /\
    {| container.PortBindings :=
         {[ "3306/tcp" := [{| natports.HostIP := "127.0.0.1";
                              natports.HostPort := "13306" |}] ]};
       container.Binds := None |} =
    {| container.PortBindings :=
         {[ port := [{| natports.HostIP := "127.0.0.1";
                        natports.HostPort := HostPort mysql |}] ]};
       container.Binds := BindHostConfig mysql |}.
Proof.
  refine (proj2 (create_call_arguments (stub all_succeed) 0 mysql
           {| op := ContainerCreate (Some {| client_handle := 1 |})
                      {| container.AttachStdout := true;
                         container.AttachStderr := true;
                         container.Env := Some ["MYSQL_ROOT_PASSWORD=secret"];
                         container.Image := "mysql:8" |}
                      {| container.PortBindings :=
                           {[ "3306/tcp" := [{| natports.HostIP := "127.0.0.1";
                                                natports.HostPort := "13306" |}] ]};
                         container.Binds := None |};
              ans := ({| container.ID := "c0ffee"; container.Warnings := None |}, None) |}
           (Some {| client_handle := 1 |}) _ _ _ _)).
  - unfold trace. simpl. find_entry.
  - reflexivity.
Defined.

Lemma attached_connection_released_witness :
  last (trace (stub exec_start_fails)
          (executeCommands (Some {| client_handle := 1 |}) "c0ffee" (Some ["ls"])) 0) =
  Some {| op := Close {| types.Conn := Some {| conn_handle := 3 |};
                         types.Reader := Some {| reader_handle := 4 |} |};
          ans := tt |} /\
  length (filter (fun e' => is_Close (op e') = true)
            (trace (stub exec_start_fails)
               (executeCommands (Some {| client_handle := 1 |}) "c0ffee" (Some ["ls"])) 0)) = 1.
Proof.
  apply (attached_connection_released (stub exec_start_fails) 0
           (Some {| client_handle := 1 |}) "c0ffee" (Some ["ls"])
           {| op := ContainerExecAttach (Some {| client_handle := 1 |}) "e1";
              ans := ({| types.Conn := Some {| conn_handle := 3 |};
                         types.Reader := Some {| reader_handle := 4 |} |}, None) |}).
  - unfold trace. simpl. find_entry.
  - reflexivity.
Defined.

(** The exec start fails, the method reports the exec step, and the record
    keeps its unset identity although the container is running. *)
Example exec_failure_reported :
  returned (stub exec_start_fails) (CreateContainer (WithCmd (Some ["ls"]) mysql)) 0 =
  (WithCmd (Some ["ls"]) mysql,
   Some (errors.Wrap (errors.Wrap (errors.New "exec refused") "unable to start exec")
           "commands were not executed")).
Proof. reflexivity. Qed.

(** Teardown with both calls failing: stop, its log line, remove, its log
    line. *)
Example teardown_both_fail :
  map op (trace (stub teardown_fails) (Stop (provisioned mysql (Some {| client_handle := 1 |}) "c0ffee")) 0) =
  [ContainerStop (Some {| client_handle := 1 |}) "c0ffee";
   log_Printf "unable to stop container: %v" (errors.New "cannot stop");
   ContainerRemove (Some {| client_handle := 1 |}) "c0ffee";
   log_Printf "unable to remove container: %v" (errors.New "cannot remove")].
Proof. reflexivity. Qed.

(** C7. On a run in which every call succeeds and [ImagePull] hands back a
    stream, the stream is dropped: the call right after [ImagePull] is
    [ContainerCreate], and no call of the run reads anything. *)
Theorem pull_stream_discarded :
  let t := trace (stub all_succeed) (CreateContainer mysql) 0 in
  t !! 2 = Some {| op := ImagePull (Some {| client_handle := 1 |}) "mysql:8";
                   ans := (Some {| reader_handle := 2 |}, None) |} /\
  steps t = [Connect; ResolvePort; PullImage; Create; Start; Wait] /\
  existsb (fun e => is_ReadAll (op e)) t = false.
Proof. split; [| split]; reflexivity. Qed.

(** * Further properties of the constructor and the mutators *)

(** The error of [NewContainer] names the argument that is empty; the image
    is checked first, so it is the one reported when both are empty. *)
Theorem NewContainer_error_messages (imageToPull containerPort : string)
    (options : list (Container -> Container)) :
  (imageToPull = "" ->
   NewContainer imageToPull containerPort options =
   (None, Some (errors.New "imageToPull cannot be empty"))) /\
  (imageToPull <> "" -> containerPort = "" ->
   NewContainer imageToPull containerPort options =
   (None, Some (errors.New "containerPort cannot be empty"))).
Proof.
  split.
  - intros ->. reflexivity.
  - intros Hi ->. unfold NewContainer.
    rewrite (eqb_empty_false _ Hi). reflexivity.
Qed.

Lemma NewContainer_error_messages_witness :
  NewContainer "" "" [WithHostPort "13306"] =
  (None, Some (errors.New "imageToPull cannot be empty")) /\
  NewContainer "mysql:8" "" [] =
  (None, Some (errors.New "containerPort cannot be empty")).
Proof.
  split.
  - apply (NewContainer_error_messages "" "" [WithHostPort "13306"]). reflexivity.
  - apply (NewContainer_error_messages "mysql:8" "" []); [discriminate | reflexivity].
Defined.






(** What a field keeps when no mutator of its function is in the list. *)
Lemma apply_options_frame (ms : list Mutator) (c : Container) :
  let c' := apply_options (map mutator ms) c in
  ImageToPull c' = ImageToPull c /\
  (Forall (fun m => mutator_index m <> 0) ms -> ContainerProtocol c' = ContainerProtocol c) /\
  (Forall (fun m => mutator_index m <> 1) ms -> HostPort c' = HostPort c) /\
  (Forall (fun m => mutator_index m <> 2) ms -> ContainerPort c' = ContainerPort c) /\
  (Forall (fun m => mutator_index m <> 3) ms -> BindHostConfig c' = BindHostConfig c) /\
  (Forall (fun m => mutator_index m <> 4) ms -> Env c' = Env c) /\
  (Forall (fun m => mutator_index m <> 5) ms -> Cmd c' = Cmd c) /\
  (Forall (fun m => mutator_index m <> 6) ms -> Sleep c' = Sleep c).
Proof.
  revert c. induction ms as [| m ms IH]; intros c; simpl.
  { repeat split; reflexivity. }
  destruct (IH (mutator m c)) as (H0 & H1 & H2 & H3 & H4 & H5 & H6 & H7).
  split; [rewrite H0; destruct m; reflexivity |].
  repeat split; intros [Hm Hms]%Forall_cons;
    [ rewrite (H1 Hms) | rewrite (H2 Hms) | rewrite (H3 Hms) | rewrite (H4 Hms)
    | rewrite (H5 Hms) | rewrite (H6 Hms) | rewrite (H7 Hms) ];
    destruct m; simpl in *; congruence.
Qed.

(** X2. No mutator changes the image, so the record always carries the image it
    was built with; and each field whose mutator is absent from the options
    has its default: protocol "tcp", host port "9876", the positional
    container port, nil binds, environment and command, zero delay. *)
Theorem NewContainer_defaults_survive (imageToPull containerPort : string)
    (ms : list Mutator) (conf : Container) :
  NewContainer imageToPull containerPort (map mutator ms) = (Some conf, None) ->
  ImageToPull conf = imageToPull /\
  (Forall (fun m => mutator_index m <> 0) ms -> ContainerProtocol conf = "tcp") /\
  (Forall (fun m => mutator_index m <> 1) ms -> HostPort conf = "9876") /\
  (Forall (fun m => mutator_index m <> 2) ms -> ContainerPort conf = containerPort) /\
  (Forall (fun m => mutator_index m <> 3) ms -> BindHostConfig conf = None) /\
  (Forall (fun m => mutator_index m <> 4) ms -> Env conf = None) /\
  (Forall (fun m => mutator_index m <> 5) ms -> Cmd conf = None) /\
  (Forall (fun m => mutator_index m <> 6) ms -> Sleep conf = 0%Z).
Proof.
  unfold NewContainer.
  destruct (String.eqb imageToPull ""); [discriminate |].
  destruct (String.eqb containerPort ""); [discriminate |].
  intros [= <-]. apply apply_options_frame.
Qed.

Lemma NewContainer_defaults_survive_witness :
  ImageToPull mysql = "mysql:8" /\ ContainerProtocol mysql = "tcp".
Proof.
  destruct (NewContainer_defaults_survive "mysql:8" "3306"
              [MHostPort "13306"; MEnv (Some ["MYSQL_ROOT_PASSWORD=secret"])] mysql eq_refl)
    as (Himage & Hproto & _).
  split; [exact Himage |].
  apply Hproto. repeat constructor; discriminate.
Defined.

Lemma apply_options_Permutation (ms ms' : list Mutator) :
  ms ≡ₚ ms' -> NoDup (map mutator_index ms) ->
  forall c, apply_options (map mutator ms) c = apply_options (map mutator ms') c.
Proof.
  induction 1 as [| m ms ms' _ IH | m1 m2 ms | ms1 ms2 ms3 H12 IH12 _ IH23];
    intros Hnd c; simpl.
  - reflexivity.
  - apply IH. simpl in Hnd. apply NoDup_cons in Hnd. apply Hnd.
  - f_equal. apply mutator_swap.
    simpl in Hnd. apply NoDup_cons in Hnd as [Hnotin _].
    intros Heq. apply Hnotin. rewrite Heq. apply list_elem_of_here.
  - rewrite IH12 by exact Hnd. apply IH23.
    assert (map mutator_index ms1 ≡ₚ map mutator_index ms2) as Hp
      by (apply Permutation_map; exact H12).
    rewrite <- Hp. exact Hnd.
Qed.

(** X3. Mutators made by pairwise different functions can be passed in any
    order: every permutation of the options builds the same record. *)
Theorem mutators_any_order (imageToPull containerPort : string) (ms ms' : list Mutator) :
  NoDup (map mutator_index ms) -> ms ≡ₚ ms' ->
  NewContainer imageToPull containerPort (map mutator ms) =
  NewContainer imageToPull containerPort (map mutator ms').
Proof.
  intros Hnd Hperm. unfold NewContainer.
  destruct (String.eqb imageToPull ""); [reflexivity |].
  destruct (String.eqb containerPort ""); [reflexivity |].
  rewrite (apply_options_Permutation ms ms' Hperm Hnd). reflexivity.
Qed.

Lemma mutators_any_order_witness :
  NewContainer "mysql:8" "3306"
    [WithHostPort "13306"; WithSleep 5; WithCmd (Some ["ls"])] =
  NewContainer "mysql:8" "3306"
    [WithCmd (Some ["ls"]); WithHostPort "13306"; WithSleep 5].
Proof.
  apply (mutators_any_order "mysql:8" "3306"
           [MHostPort "13306"; MSleep 5; MCmd (Some ["ls"])]
           [MCmd (Some ["ls"]); MHostPort "13306"; MSleep 5]).
  - apply (bool_decide_unpack _). vm_compute. exact I.
  - symmetry. apply (Permutation_cons_append [MHostPort "13306"; MSleep 5]).
Defined.

(** * Further properties of provisioning and teardown *)

(** Rewriting with the recorded answers of the handler. *)
Ltac replay h :=
  simpl;
  repeat match goal with
         | H : h ?o ?w = _ |- context [h ?o ?w] => rewrite H; simpl
         end.

Section Lifecycle.

Context {World : Type}.
Variable h : forall o : Op, World -> Ans o * World.

(** X4. When a call of [executeCommands] fails (the read of the output apart),
    the function returns the cause wrapped in the message of that call, and
    the failed call is the last one made, the deferred close aside. *)
Theorem executeCommands_errors (w : World) (cli : option Client)
    (containerID : string) (cmd : slice string) :
  let t := trace h (executeCommands cli containerID cmd) w in
  let r := returned h (executeCommands cli containerID cmd) w in
  forall (e : Entry) (cause : error),
    e ∈ t -> failed e = Some cause -> is_ReadAll (op e) = false ->
    exists msg : string,
      exec_message (op e) = Some msg /\
      r = Some (errors.Wrap cause msg) /\
      last (filter (fun e' => is_Close (op e') = false) t) = Some e.
Proof.
  unfold trace, returned, executeCommands, defer.
  destruct cmd; all_calls h.
  all: intros entry cause Hin Hfail Hread.
  all: each_entry Hin; try discriminate.
  all: unfold failed in Hfail; simpl in Hfail; injection Hfail as <-.
  all: eexists; split; [reflexivity |]; split; reflexivity.
Qed.

(** X5. With a command, when the three exec calls come back without error the
    function returns nil whatever the read of the output answers, its error
    included.  The calls are then: create the exec with stdout and stderr
    attached and the command, attach to the exec created, start it, read the
    reader of the attached response, log what was read, close the response. *)
Theorem executeCommands_success (w : World) (cli : option Client)
    (containerID : string) (cmd : list string) :
  let t := trace h (executeCommands cli containerID (Some cmd)) w in
  let r := returned h (executeCommands cli containerID (Some cmd)) w in
  (forall e : Entry, e ∈ t -> is_ReadAll (op e) = false -> failed e = None) ->
  r = None /\
  exists (execID : types.IDResponse) (response : types.HijackedResponse)
         (data : string) (readErr : option error),
    t = [{| op := ContainerExecCreate cli containerID
                    {| types.AttachStdout := true; types.AttachStderr := true;
                       types.Cmd := Some cmd |};
            ans := (execID, None) |};
         {| op := ContainerExecAttach cli (types.ID execID); ans := (response, None) |};
         {| op := ContainerExecStart cli (types.ID execID); ans := None |};
         {| op := ioutil_ReadAll (types.Reader response); ans := (data, readErr) |};
         {| op := log_Println data; ans := tt |};
         {| op := Close response; ans := tt |}].
Proof.
  unfold trace, returned, executeCommands, defer.
  all_calls h.
  all: intros Hall.
  all: try (split; [reflexivity | eexists _, _, _, _; reflexivity]).
  all: exfalso; rewrite <- Forall_forall in Hall.
  all: repeat (apply Forall_cons in Hall as [? Hall]).
  all: unfold failed in *; simpl in *.
  all: match goal with H : _ = false -> Some _ = None |- _ => discriminate (H eq_refl) end.
Qed.

(** X6. [CreateContainer] closes only what it acquired: every close in its trace
    is of a response that an attach call of the same run returned without
    error. *)
Theorem close_only_attached (w : World) (c : Container) :
  let t := trace h (CreateContainer c) w in
  forall (e : Entry) (response : types.HijackedResponse),
    e ∈ t -> op e = Close response ->
    exists e0 : Entry, e0 ∈ t /\ attached e0 = Some response.
Proof.
  unfold trace, CreateContainer, executeCommands, defer.
  destruct c as [? ? ? ? ? ? cmd ? ? ?].
  destruct cmd; all_calls h.
  all: intros entry response Hin Hop.
  all: each_entry Hin; simpl in Hop; try discriminate.
  all: injection Hop as <-.
  all: eexists {| op := ContainerExecAttach _ _; ans := (_, None) |}.
  all: split; [find_entry | reflexivity].
Qed.

(** X7. A run of [CreateContainer] that makes six calls or more has got past the
    start of the container.  Its trace is then the six successful calls, each
    on the client the connect call returned, with the image, the delay and
    the ports of the record, the start on the ID of the create response,
    followed by a run of [executeCommands] on that client, that ID and the
    command of the record; the outcome of that run decides the result. *)
Theorem CreateContainer_past_start (w : World) (c : Container) :
  let t := trace h (CreateContainer c) w in
  let r := returned h (CreateContainer c) w in
  6 <= length t ->
  exists (cli : option Client) (port : natports.Port) (stream : option Reader)
         (cont : container.CreateResponse) (w6 : World),
    t = ([{| op := NewClientWithOpts; ans := (cli, None) |};
          {| op := NewPort (ContainerProtocol c) (ContainerPort c); ans := (port, None) |};
          {| op := ImagePull cli (ImageToPull c); ans := (stream, None) |};
          {| op := ContainerCreate cli
                     {| container.AttachStdout := true;
                        container.AttachStderr := true;
                        container.Env := Env c;
                        container.Image := ImageToPull c |}
                     {| container.PortBindings :=
                          {[ port := [{| natports.HostIP := "127.0.0.1";
                                         natports.HostPort := HostPort c |}] ]};
                        container.Binds := BindHostConfig c |};
             ans := (cont, None) |};
          {| op := ContainerStart cli (container.ID cont); ans := None |};
          {| op := time_Sleep (Sleep c); ans := tt |}] ++
         trace h (executeCommands cli (container.ID cont) (Cmd c)) w6)%list /\
    r = match returned h (executeCommands cli (container.ID cont) (Cmd c)) w6 with
        | Some err => (c, Some (errors.Wrap err "commands were not executed"))
        | None => (provisioned c cli (container.ID cont), None)
        end.
Proof.
  unfold trace, returned, CreateContainer.
  destruct c as [? ? ? ? ? ? cmd ? ? ?].
  unfold executeCommands, defer.
  destruct cmd; all_calls h.
  all: intros Hlen; try (simpl in Hlen; lia).
  all: match goal with
       | H1 : h NewClientWithOpts _ = (?cli, None, _),
         H2 : h (NewPort _ _) _ = (?port, None, _),
         H3 : h (ImagePull _ _) _ = (?stream, None, _),
         H4 : h (ContainerCreate _ _ _) _ = (?cont, None, _),
         H6 : h (time_Sleep _) _ = (_, ?w6) |- _ =>
         exists cli, port, stream, cont, w6
       end.
  all: split; replay h; reflexivity.
Qed.

(** X8. [CreateContainer] never tears down: none of its calls stops or removes a
    container, on the failing paths as on the others; what an earlier step
    created stays when a later step fails. *)
Theorem CreateContainer_no_rollback (w : World) (c : Container) :
  Forall (fun e => step_of (op e) <> Teardown) (trace h (CreateContainer c) w).
Proof.
  unfold trace, CreateContainer, executeCommands, defer.
  destruct c as [? ? ? ? ? ? cmd ? ? ?].
  destruct cmd; all_calls h.
  all: repeat (apply Forall_cons_2; [discriminate |]); apply Forall_nil_2.
Qed.

(** X9. [CreateContainer] invents no error.  When it returns one, the last call
    it made (the deferred close aside) failed, and the error wraps the cause
    of that call in the message of its step. *)
Theorem CreateContainer_error_has_cause (w : World) (c : Container) (err : error) :
  let t := trace h (CreateContainer c) w in
  (returned h (CreateContainer c) w).2 = Some err ->
  exists (e : Entry) (cause cause' : error) (msg : string),
    last (filter (fun e' => is_Close (op e') = false) t) = Some e /\
    failed e = Some cause /\
    step_message (step_of (op e)) = Some msg /\
    err = errors.Wrap cause' msg /\
    has_cause cause' cause.
Proof.
  unfold trace, returned, CreateContainer, executeCommands, defer.
  destruct c as [? ? ? ? ? ? cmd ? ? ?].
  destruct cmd; all_calls h.
  all: intros Herr; try discriminate.
  all: injection Herr as <-.
  all: eexists _, _, _, _.
  all: split; [reflexivity |].
  all: split; [reflexivity |].
  all: split; [reflexivity |].
  all: split; [reflexivity |].
  all: first [ apply has_cause_refl | apply has_cause_wrap ].
Qed.

(** X10. Provisioning then teardown.  After a successful [CreateContainer], [Stop]
    on the resulting record stops and then removes the container whose ID the
    create call returned, on the client the connect call returned. *)
Theorem provision_then_teardown (w : World) (c : Container) :
  let t := trace h (CreateContainer c) w in
  let r := returned h (CreateContainer c) w in
  r.2 = None ->
  exists (cli : option Client) (cont : container.CreateResponse),
    {| op := NewClientWithOpts; ans := (cli, None) |} ∈ t /\
    (exists config hostConfig,
        {| op := ContainerCreate cli config hostConfig; ans := (cont, None) |} ∈ t) /\
    forall w' : World, exists stopErr removeErr : option error,
      trace h (Stop r.1) w' =
      ({| op := ContainerStop cli (container.ID cont); ans := stopErr |}
         :: logged "unable to stop container: %v" stopErr ++
       {| op := ContainerRemove cli (container.ID cont); ans := removeErr |}
         :: logged "unable to remove container: %v" removeErr)%list.
Proof.
  unfold trace, returned, CreateContainer, executeCommands, defer.
  destruct c as [? ? ? ? ? ? cmd ? ? ?].
  destruct cmd; all_calls h.
  all: intros Hok; try discriminate.
  all: eexists _, _; split; [find_entry |].
  all: split; [eexists _, _; find_entry |].
  all: intros w'; unfold Stop; all_calls h.
  all: first [ exists None, None; reflexivity
             | eexists None, (Some _); reflexivity
             | eexists (Some _), None; reflexivity
             | eexists (Some _), (Some _); reflexivity ].
Qed.

(** X12. No retry: a run of [CreateContainer] makes at most twelve calls and makes
    no call twice. *)
Theorem CreateContainer_no_retry (w : World) (c : Container) :
  length (trace h (CreateContainer c) w) <= 12 /\
  NoDup (map op (trace h (CreateContainer c) w)).
Proof.
  unfold trace, CreateContainer, executeCommands, defer.
  destruct c as [? ? ? ? ? ? cmd ? ? ?].
  destruct cmd; all_calls h.
  all: split; [lia |].
  all: repeat (apply NoDup_cons_2;
               [let Hin := fresh "Hin" in
                intros Hin;
                repeat (apply elem_of_cons in Hin as [Hin | Hin]; [discriminate Hin |]);
                apply elem_of_nil in Hin; destruct Hin |]).
  all: apply NoDup_nil_2.
Qed.

End Lifecycle.

(** * The further properties on the scripted stub *)

Lemma executeCommands_errors_witness :
  exists msg : string,
    exec_message (ContainerExecAttach (Some {| client_handle := 1 |}) "e1") = Some msg /\
    returned (stub attach_fails)
      (executeCommands (Some {| client_handle := 1 |}) "c0ffee" (Some ["ls"])) 0 =
    Some (errors.Wrap (errors.New "no such exec") msg) /\
    last (filter (fun e' => is_Close (op e') = false)
            (trace (stub attach_fails)
               (executeCommands (Some {| client_handle := 1 |}) "c0ffee" (Some ["ls"])) 0)) =
    Some {| op := ContainerExecAttach (Some {| client_handle := 1 |}) "e1";
            ans := ({| types.Conn := Some {| conn_handle := 3 |};
                       types.Reader := Some {| reader_handle := 4 |} |},
                    Some (errors.New "no such exec")) |}.
Proof.
  apply (executeCommands_errors (stub attach_fails) 0
           (Some {| client_handle := 1 |}) "c0ffee" (Some ["ls"])
           {| op := ContainerExecAttach (Some {| client_handle := 1 |}) "e1";
              ans := ({| types.Conn := Some {| conn_handle := 3 |};
                         types.Reader := Some {| reader_handle := 4 |} |},
                      Some (errors.New "no such exec")) |}).
  - unfold trace. simpl. find_entry.
  - reflexivity.
  - reflexivity.
Defined.

Lemma executeCommands_success_witness :
  returned (stub read_fails)
    (executeCommands (Some {| client_handle := 1 |}) "c0ffee" (Some ["ls"])) 0 = None.
Proof.
  apply (executeCommands_success (stub read_fails) 0
           (Some {| client_handle := 1 |}) "c0ffee" ["ls"]).
  intros e He Hread. unfold trace in He. simpl in He.
  each_entry He; first [ reflexivity | discriminate Hread ].
Defined.

Lemma close_only_attached_witness :
  exists e0 : Entry,
    e0 ∈ trace (stub all_succeed) (CreateContainer mysql_init) 0 /\
    attached e0 = Some {| types.Conn := Some {| conn_handle := 3 |};
                          types.Reader := Some {| reader_handle := 4 |} |}.
Proof.
  apply (close_only_attached (stub all_succeed) 0 mysql_init
           {| op := Close {| types.Conn := Some {| conn_handle := 3 |};
                             types.Reader := Some {| reader_handle := 4 |} |};
              ans := tt |}).
  - unfold trace. simpl. find_entry.
  - reflexivity.
Defined.

Lemma CreateContainer_past_start_witness :
  exists (cli : option Client) (cont : container.CreateResponse) (w6 : nat),
    returned (stub exec_start_fails) (CreateContainer mysql_init) 0 =
    match returned (stub exec_start_fails)
            (executeCommands cli (container.ID cont) (Cmd mysql_init)) w6 with
    | Some err => (mysql_init, Some (errors.Wrap err "commands were not executed"))
    | None => (provisioned mysql_init cli (container.ID cont), None)
    end.
Proof.
  destruct (CreateContainer_past_start (stub exec_start_fails) 0 mysql_init)
    as (cli & port & stream & cont & w6 & _ & Hr).
  - unfold trace. simpl. lia.
  - exists cli, cont, w6. exact Hr.
Defined.

Lemma CreateContainer_error_has_cause_witness :
  exists (e : Entry) (cause cause' : error) (msg : string),
    last (filter (fun e' => is_Close (op e') = false)
            (trace (stub start_fails) (CreateContainer mysql) 0)) = Some e /\
    failed e = Some cause /\
    step_message (step_of (op e)) = Some msg /\
    errors.Wrap (errors.New "port is already allocated") "unable to start container" =
    errors.Wrap cause' msg /\
    has_cause cause' cause.
Proof.
  apply (CreateContainer_error_has_cause (stub start_fails) 0 mysql).
  reflexivity.
Defined.

Lemma provision_then_teardown_witness :
  exists (cli : option Client) (cont : container.CreateResponse),
    forall w' : nat, exists stopErr removeErr : option error,
      trace (stub all_succeed)
        (Stop (returned (stub all_succeed) (CreateContainer mysql) 0).1) w' =
      ({| op := ContainerStop cli (container.ID cont); ans := stopErr |}
         :: logged "unable to stop container: %v" stopErr ++
       {| op := ContainerRemove cli (container.ID cont); ans := removeErr |}
         :: logged "unable to remove container: %v" removeErr)%list.
Proof.
  destruct (provision_then_teardown (stub all_succeed) 0 mysql eq_refl)
    as (cli & cont & _ & _ & Hstop).
  exists cli, cont. exact Hstop.
Defined.

(** A start that fails leaves the created container behind: the trace ends
    with the failed start, after a create that succeeded. *)
Example start_failure_leaves_container :
  map op (drop 3 (trace (stub start_fails) (CreateContainer mysql) 0)) =
  [ContainerCreate (Some {| client_handle := 1 |})
     {| container.AttachStdout := true; container.AttachStderr := true;
        container.Env := Some ["MYSQL_ROOT_PASSWORD=secret"];
        container.Image := "mysql:8" |}
     {| container.PortBindings :=
          {[ "3306/tcp" := [{| natports.HostIP := "127.0.0.1";
                               natports.HostPort := "13306" |}] ]};
        container.Binds := None |};
   ContainerStart (Some {| client_handle := 1 |}) "c0ffee"].
Proof. reflexivity. Qed.
